(** * Spectrum-analyzer drivers: the FSUP50 driver and the ESA facade

    A shallow embedding of [FSUP50.py] and [ESA.py].  Python values,
    exceptions and the [%] formatting operator are modelled first, then the
    transport as a trace of lines written and read, then the driver class
    and the facade, method by method. *)

From Stdlib Require Import ZArith QArith Qabs String Ascii List Lia.
From stdpp Require Import base option strings gmap.

Set Warnings "-register-all".

Open Scope string_scope.

(** ** Python values and exceptions *)

(** The values that reach the two modules.  A number ([int] or finite
    [float]) is kept as the exact rational it denotes. *)
Inductive pyval : Type :=
| PyNone
| PyNum (q : Q)
| PyStr (s : string)
| PyBoundMethod (cls name : string)
| PyDict (d : gmap string pyval).

(** An exception is its class name and its constructor arguments. *)
Record pyexn : Type := PyExn { exn_class : string; exn_args : list pyval }.

Inductive result (A : Type) : Type :=
| Ok (a : A)
| Raise (e : pyexn).
Arguments Ok {A} a.
Arguments Raise {A} e.

Definition TypeError (msg : string) : pyexn := PyExn "TypeError" [PyStr msg].
Definition ValueError (msg : string) : pyexn := PyExn "ValueError" [PyStr msg].
Definition IndexError (msg : string) : pyexn := PyExn "IndexError" [PyStr msg].
Definition KeyError (key : string) : pyexn := PyExn "KeyError" [PyStr key].
Definition AttributeError (attr : string) : pyexn :=
  PyExn "AttributeError" [PyStr attr].

(** ** Computations over a state, with exceptions

    A method is a function of the state giving a result and the state it
    leaves; an exception leaves the state as it was when it was raised. *)
Definition M (S A : Type) : Type := S -> result A * S.

Definition ret {S A} (a : A) : M S A := fun s => (Ok a, s).
Definition raise {S A} (e : pyexn) : M S A := fun s => (Raise e, s).
Definition bind {S A B} (m : M S A) (k : A -> M S B) : M S B :=
  fun s => match m s with
           | (Ok a, s') => k a s'
           | (Raise e, s') => (Raise e, s')
           end.
Definition lift_result {S A} (r : result A) : M S A := fun s => (r, s).

(** [try: body except: handler] *)
Definition try_except {S A} (body : M S A) (handler : pyexn -> M S A) : M S A :=
  fun s => match body s with
           | (Ok a, s') => (Ok a, s')
           | (Raise e, s') => handler e s'
           end.

Notation "'do' x <- m ; k" := (bind m (fun x => k))
  (at level 10, x name, m at level 100, k at level 200).
Notation "'do_' m ; k" := (bind m (fun _ => k))
  (at level 10, m at level 100, k at level 200).

(** ** Strings *)

(** [s.split(sep)] for a one-character separator. *)
Fixpoint py_split (sep : ascii) (s : string) : list string :=
  match s with
  | EmptyString => [EmptyString]
  | String c r =>
      if Ascii.eqb c sep then EmptyString :: py_split sep r
      else match py_split sep r with
           | h :: t => String c h :: t
           | [] => [String c EmptyString]
           end
  end.

(** [l[i]] *)
Definition py_index (l : list string) (i : nat) : result string :=
  match nth_error l i with
  | Some x => Ok x
  | None => Raise (IndexError "list index out of range")
  end.

(** [d[key]] *)
Definition py_subscript (d : gmap string pyval) (key : string) : result pyval :=
  match d !! key with
  | Some v => Ok v
  | None => Raise (KeyError key)
  end.

(** [v == s] for a string literal [s]. *)
Definition py_eq_str (v : pyval) (s : string) : bool :=
  match v with
  | PyStr s' => String.eqb s' s
  | _ => false
  end.

(** [sep.join(l)], used to state that splitting loses nothing. *)
Fixpoint py_join (sep : string) (l : list string) : string :=
  match l with
  | [] => EmptyString
  | [x] => x
  | x :: rest => x ++ sep ++ py_join sep rest
  end.

(** Number of occurrences of a character. *)
Fixpoint count_char (c : ascii) (s : string) : nat :=
  match s with
  | EmptyString => 0
  | String c' r => (if Ascii.eqb c' c then 1 else 0) + count_char c r
  end.

(** ** Decimal text of numbers *)

Definition digit_char (d : Z) : ascii := ascii_of_N (48 + Z.to_N d).

Definition digit_val (c : ascii) : option Z :=
  let n := Z.of_N (N_of_ascii c) in
  if ((48 <=? n) && (n <=? 57))%Z then Some (n - 48)%Z else None.

(** The [w] low decimal digits of [n], most significant first. *)
Fixpoint fixed (w : nat) (n : Z) : string :=
  match w with
  | O => EmptyString
  | S w' => fixed w' (n / 10) ++ String (digit_char (n mod 10)) EmptyString
  end.

Fixpoint strip_zeros (s : string) : string :=
  match s with
  | String c (String _ _ as r) =>
      if Ascii.eqb c "0" then strip_zeros r else s
  | _ => s
  end.

(** Decimal text of a natural number, without leading zeros. *)
Definition int_digits (n : Z) : string :=
  strip_zeros (fixed (S (Z.to_nat (Z.log2 n))) n).

(** The integer nearest to [a / d], ties to the even one. *)
Definition round_half_even (a d : Z) : Z :=
  let k := (a / d)%Z in
  let r := (a mod d)%Z in
  if (2 * r <? d)%Z then k
  else if (d <? 2 * r)%Z then (k + 1)%Z
  else if Z.even k then k else (k + 1)%Z.

(** The [%f] conversion: sign, integer part, six decimals. *)
Definition fmt_f (q : Q) : string :=
  let k := round_half_even (Z.abs (Qnum q) * 10 ^ 6) (Zpos (Qden q)) in
  (if (Qnum q <? 0)%Z then "-" else "")
  ++ int_digits (k / 10 ^ 6) ++ "." ++ fixed 6 (k mod 10 ^ 6).

(** [tmpl % arg] with a single argument.  The conversions [%f] and [%%] are
    covered, the only ones in the command templates; [arg] is [None] once it
    has been consumed. *)
Fixpoint py_percent_scan (tmpl : string) (arg : option pyval)
  : result (string * option pyval) :=
  match tmpl with
  | EmptyString => Ok (EmptyString, arg)
  | String c r =>
      if Ascii.eqb c "%" then
        match r with
        | EmptyString => Raise (ValueError "incomplete format")
        | String c' r' =>
            if Ascii.eqb c' "f" then
              match arg with
              | None =>
                  Raise (TypeError "not enough arguments for format string")
              | Some (PyNum q) =>
                  match py_percent_scan r' None with
                  | Ok (t, a) => Ok (fmt_f q ++ t, a)
                  | Raise e => Raise e
                  end
              | Some _ => Raise (TypeError "must be real number")
              end
            else if Ascii.eqb c' "%" then
              match py_percent_scan r' arg with
              | Ok (t, a) => Ok (String "%" t, a)
              | Raise e => Raise e
              end
            else Raise (ValueError "unsupported format character")
        end
      else
        match py_percent_scan r arg with
        | Ok (t, a) => Ok (String c t, a)
        | Raise e => Raise e
        end
  end.

Definition py_percent (tmpl : string) (arg : pyval) : result string :=
  match py_percent_scan tmpl (Some arg) with
  | Ok (t, None) => Ok t
  | Ok (t, Some (PyDict _)) => Ok t
  | Ok (_, Some _) =>
      Raise (TypeError "not all arguments converted during string formatting")
  | Raise e => Raise e
  end.

(** ** Reading a number back: [float(s)] on fixed-point literals *)

Fixpoint parse_digits (s : string) (acc : Z) : option Z :=
  match s with
  | EmptyString => Some acc
  | String c r =>
      match digit_val c with
      | Some d => parse_digits r (acc * 10 + d)
      | None => None
      end
  end.

(** The text before the first ["."] and the text after it. *)
Fixpoint split_dot (s : string) : string * string :=
  match s with
  | EmptyString => (EmptyString, EmptyString)
  | String c r =>
      if Ascii.eqb c "." then (EmptyString, r)
      else let '(a, b) := split_dot r in (String c a, b)
  end.

(** A leading sign, and the text after it. *)
Definition strip_sign (s : string) : bool * string :=
  match s with
  | String c r =>
      if Ascii.eqb c "-" then (true, r)
      else if Ascii.eqb c "+" then (false, r)
      else (false, s)
  | EmptyString => (false, s)
  end.

(** [float(s)] for an optional sign, digits, and an optional point followed
    by digits; any other text is a [ValueError]. *)
Definition py_float (s : string) : result Q :=
  let '(neg, body) := strip_sign s in
  let '(ip, fp) := split_dot body in
  match parse_digits ip 0, parse_digits fp 0 with
  | Some a, Some b =>
      if Nat.eqb (String.length ip + String.length fp) 0
      then Raise (ValueError "could not convert string to float")
      else
        let scale := (10 ^ Z.of_nat (String.length fp))%Z in
        let m := (a * scale + b)%Z in
        Ok (Qmake (if neg then (- m)%Z else m) (Z.to_pos scale))
  | _, _ => Raise (ValueError "could not convert string to float")
  end.

(** ** The transport

    The bus is outside the repository.  It is modelled by the trace of the
    lines written to it and read from it, oldest first, and the instrument
    at the other end by the line it answers after a given history of
    written lines. *)
Inductive io : Type :=
| Wrote (line : string)
| Read (line : string).

Definition trace : Type := list io.

Definition written (tr : trace) : list string :=
  flat_map (fun e => match e with Wrote l => [l] | Read _ => [] end) tr.

Definition reads (tr : trace) : list string :=
  flat_map (fun e => match e with Read l => [l] | Wrote _ => [] end) tr.

Definition device : Type := list string -> string.



(** A mock instrument that always answers the same line. *)
Definition const_device (reply : string) : device := fun _ => reply.

(** ** Constants of [FSUP50.py] *)

Definition nl : string := String "010" EmptyString.

Definition FSUP50_RESET : string := "*RST" ++ nl.
Definition FSUP50_WAIT_TO_COMPLETE : string := "*OPC?" ++ nl.
Definition FSUP50_START_FREQUENCY_SET : string := "FREQ:STAR %f".
Definition FSUP50_START_FREQUENCY_GET : string := "FREQ:STAR?".
Definition FSUP50_STOP_FREQUENCY_SET : string := "FREQ:STOP %f".
Definition FSUP50_STOP_FREQUENCY_GET : string := "FREQ:STOP?".
Definition FSUP50_VIDEO_BW_SET : string := "BAND:VID %fHz".
Definition FSUP50_VIDEO_BW_GET : string := "BAND:VID?".
Definition FSUP50_RESOLUTION_BW_SET : string := "BAND:AUTO OFF".
Definition FSUP50_RESOLUTION_BW_GET : string := "BAND?".
Definition FSUP50_CENTER_FREQUENCY_SET : string := "FREQ:CENT %f".
Definition FSUP50_SPAN_FREQUENCY_SET : string := "FREQ:SPAN %f".
Definition FSUP50_MARKER_FREQUENCY_GET : string := "CALC:MARK:COUN ON".
Definition FSUP50_MARKER_AMPLITUDE_GET : string := "CALC:MARK:Y?".
Definition FSUP50_SWEEPTIME_GET : string := "SWE:TIME?".
Definition FSUP50_SWEEP_SINGLE_SET : string := "INIT:CONT OFF".
Definition FSUP50_MOVE_MARKER_PEAK : string := "CALC:MARK:MAX".

(** ** The validators and the property descriptor *)

(** Modelled from the spec: the errors of the validators and of the
    descriptor, which [FSUP50.py] and [ESA.py] neither define nor raise. *)
Definition ValidationError : pyexn :=
  PyExn "ValidationError" [PyStr "value outside the legal range"].
Definition ParseError : pyexn :=
  PyExn "ParseError" [PyStr "reply is not a number"].
Definition OutOfRangeError : pyexn :=
  PyExn "OutOfRangeError" [PyStr "value outside the legal range"].

Definition q_min (a b : Q) : Q := if Qle_bool a b then a else b.
Definition q_max (a b : Q) : Q := if Qle_bool a b then b else a.

(** Modelled from the spec: the bounds [min(values)] and [max(values)] of a
    declared range; an empty range has none. *)
Definition range_of (values : list Q) : option (Q * Q) :=
  match values with
  | [] => None
  | v0 :: vs => Some (fold_left q_min vs v0, fold_left q_max vs v0)
  end.

(** Modelled from the spec: the validator [strict_range] of
    [sytpy.devices.General.validators], which is not among the sources.
    It returns the value when it lies in [[min(values), max(values)]] and
    fails otherwise; an empty range is no constraint. *)
Definition strict_range (value : Q) (values : list Q) : result Q :=
  match range_of values with
  | None => Ok value
  | Some (lo, hi) =>
      if Qle_bool lo value && Qle_bool value hi
      then Ok value
      else Raise OutOfRangeError
  end.

(** Modelled from the spec: the property descriptor that
    [Instrument.control] builds; [Instrument.py] is not among the sources.
    The fields are the arguments the driver passes (the docstring apart). *)
Record control : Type := Control {
  get_command : string;
  set_command : string;
  validator : Q -> list Q -> result Q;
  values : list Q;
  set_wait : bool
}.

(** The four descriptors that [FSUP50] declares. *)
Definition start_frequency : control :=
  Control FSUP50_START_FREQUENCY_GET FSUP50_START_FREQUENCY_SET
          strict_range [0%Q; 50000000000%Q] true.

Definition stop_frequency : control :=
  Control FSUP50_STOP_FREQUENCY_GET FSUP50_STOP_FREQUENCY_SET
          strict_range [] true.

Definition video_bw : control :=
  Control FSUP50_VIDEO_BW_GET FSUP50_VIDEO_BW_SET
          strict_range [1%Q; 10%Q] true.

Definition resolution_bw : control :=
  Control FSUP50_RESOLUTION_BW_GET FSUP50_RESOLUTION_BW_SET
          strict_range [10%Q; 50%Q] true.

(** [time.sleep(secs)]: a number is a duration (time itself is not
    modelled), anything else is a [TypeError]. *)
Definition time_sleep (secs : pyval) : M trace pyval :=
  match secs with
  | PyNum q =>
      if Qle_bool 0 q then ret PyNone
      else raise (ValueError "sleep length must be non-negative")
  | _ => raise (TypeError "a float is required")
  end.

(** A method called with the wrong number of positional arguments raises
    [TypeError] before its body runs. *)
Definition arity0 (f : M trace pyval) (args : list pyval) : M trace pyval :=
  match args with
  | [] => f
  | _ => raise (TypeError "wrong number of positional arguments")
  end.

Definition arity1 (f : pyval -> M trace pyval) (args : list pyval)
  : M trace pyval :=
  match args with
  | [a] => f a
  | _ => raise (TypeError "wrong number of positional arguments")
  end.

Fixpoint lookup_method {A} (name : string) (table : list (string * A))
  : option A :=
  match table with
  | [] => None
  | (n, f) :: rest => if String.eqb n name then Some f else lookup_method name rest
  end.

(** Mock drivers for the second model: a class with no methods, and a class
    whose every method records nothing and answers [None]. *)
Definition no_methods (o : unit) (name : string)
  : option (list pyval -> M trace pyval) := None.


Definition no_inherited (name : string)
  : option (list pyval -> M trace pyval) := None.

Definition mock_init (resourceName : string) (kwargs : gmap string pyval)
  : M trace unit := ret tt.

(** Keyword arguments and identity replies used as concrete inputs. *)
Definition kwargs_FSUP50 : gmap string pyval :=
  <["devicedriver" := PyStr "FSUP50"]> (<["label" := PyStr "ESA"]> ∅).


Definition kwargs_unknown : gmap string pyval :=
  <["devicedriver" := PyStr "UnknownModel"]> (<["label" := PyStr "ESA"]> ∅).

Definition kwargs_no_driver : gmap string pyval :=
  <["label" := PyStr "ESA"]> ∅.


Definition identity_full : string := "Vendor,Model,SN123,1.02".
Definition identity_short : string := "Vendor,Model".

Section Drivers.

(** The instrument at the other end of the bus. *)
Variable dev : device.

(** The methods [FSUP50] inherits from [Instrument] other than [write] and
    [ask]; [Instrument.py] is not among the sources. *)
Variable Instrument_method : string -> option (list pyval -> M trace pyval).

(** The driver class [N9030A], which is not among the sources: its
    instances, its constructor and its methods by name. *)
Variable N9030A_t : Type.
Variable N9030A___init__ : string -> gmap string pyval -> M trace N9030A_t.
Variable N9030A_getattr :
  N9030A_t -> string -> option (list pyval -> M trace pyval).

(** *** The instrument base *)

Record Instrument_t : Type := {
  resourceName : string;
  name : string;
  id : string
}.

(** Modelled from the spec: [Instrument.write] sends the command line
    verbatim and expects no response. *)
Definition Instrument_write (command : string) : M trace pyval :=
  fun tr => (Ok PyNone, (tr ++ [Wrote command])%list).

(** Modelled from the spec: [Instrument.ask] writes the command, then reads
    exactly one response line. *)
Definition Instrument_ask (command : string) : M trace string :=
  fun tr =>
    let tr1 := (tr ++ [Wrote command])%list in
    let reply := dev (written tr1) in
    (Ok reply, (tr1 ++ [Read reply])%list).

(** Modelled from the spec: the identity query of the base constructor. *)
Definition IDENTITY_QUERY : string := "*IDN?".

(** Modelled from the spec: [Instrument.__init__] issues the identity query
    once and keeps the reply as [id]. *)
Definition Instrument___init__ (resourceName name : string)
    (kwargs : gmap string pyval) : M trace Instrument_t :=
  do reply <- Instrument_ask IDENTITY_QUERY;
  ret {| resourceName := resourceName; name := name; id := reply |}.

(** Modelled from the spec: the set path of a descriptor.  The value is
    validated, the set template is formatted with the validated value and
    written, and with [set_wait] the completion query is asked. *)
Definition control_set (c : control) (value : pyval) : M trace pyval :=
  match value with
  | PyNum q =>
      match validator c q (values c) with
      | Raise _ => raise ValidationError
      | Ok q' =>
          do cmd <- lift_result (py_percent (set_command c) (PyNum q'));
          do_ Instrument_write cmd;
          if set_wait c
          then do_ Instrument_ask FSUP50_WAIT_TO_COMPLETE; ret PyNone
          else ret PyNone
      end
  | _ => raise (TypeError "a number is required")
  end.

(** Modelled from the spec: the get path of a descriptor.  The get template
    is asked as it is and the reply parsed to a float. *)
Definition control_get (c : control) : M trace pyval :=
  do reply <- Instrument_ask (get_command c);
  match py_float reply with
  | Ok q => ret (PyNum q)
  | Raise _ => raise ParseError
  end.

(** *** The class [FSUP50] *)

Record FSUP50_t : Type := {
  base : Instrument_t;
  model : string;
  vendor : string;
  serial : string;
  fw : string
}.

Definition FSUP50___init__ (resourceName : string)
    (kwargs : gmap string pyval) : M trace FSUP50_t :=
  do b <- Instrument___init__ resourceName
            "R&S FSUP Signal Source Analyzer" kwargs;
  do model <- lift_result (py_index (py_split "," (id b)) 1);
  do vendor <- lift_result (py_index (py_split "," (id b)) 0);
  do serial <- lift_result (py_index (py_split "," (id b)) 2);
  do fw <- lift_result (py_index (py_split "," (id b)) 3);
  ret {| base := b; model := model; vendor := vendor;
         serial := serial; fw := fw |}.

Definition FSUP50_wait_to_complete (self : FSUP50_t) : M trace pyval :=
  let cmdstr := FSUP50_WAIT_TO_COMPLETE in
  do_ Instrument_write cmdstr;
  ret PyNone.

Definition FSUP50_rst (self : FSUP50_t) : M trace pyval :=
  let cmd := FSUP50_RESET in
  do_ Instrument_write cmd;
  do_ time_sleep (PyStr FSUP50_WAIT_TO_COMPLETE);
  do ret_value <- FSUP50_wait_to_complete self;
  ret ret_value.

Definition FSUP50_set_start_frequency (self : FSUP50_t) (freq : pyval)
  : M trace pyval :=
  do_ control_set start_frequency freq; ret PyNone.

Definition FSUP50_get_start_frequency (self : FSUP50_t) : M trace pyval :=
  control_get start_frequency.

Definition FSUP50_set_stop_frequency (self : FSUP50_t) (freq : pyval)
  : M trace pyval :=
  do_ control_set stop_frequency freq; ret PyNone.

Definition FSUP50_get_stop_frequency (self : FSUP50_t) : M trace pyval :=
  control_get stop_frequency.

Definition FSUP50_set_video_bw (self : FSUP50_t) (bw : pyval)
  : M trace pyval :=
  do_ control_set video_bw bw; ret PyNone.

Definition FSUP50_get_video_bw (self : FSUP50_t) : M trace pyval :=
  control_get video_bw.

Definition FSUP50_set_resolution_bw (self : FSUP50_t) (bw : pyval)
  : M trace pyval :=
  do_ control_set resolution_bw bw; ret PyNone.

Definition FSUP50_get_resolution_bw (self : FSUP50_t) : M trace pyval :=
  control_get resolution_bw.

Definition FSUP50_set_center_frequency (self : FSUP50_t) (freq : pyval)
  : M trace pyval :=
  do cmd <- lift_result (py_percent FSUP50_CENTER_FREQUENCY_SET freq);
  do_ Instrument_write cmd;
  ret PyNone.

Definition FSUP50_set_span_frequency (self : FSUP50_t) (span : pyval)
  : M trace pyval :=
  do cmd <- lift_result (py_percent FSUP50_SPAN_FREQUENCY_SET span);
  do_ Instrument_write cmd;
  ret PyNone.

Definition FSUP50_get_marker_frequency (self : FSUP50_t) : M trace pyval :=
  do reply <- Instrument_ask FSUP50_MARKER_FREQUENCY_GET; ret (PyStr reply).

Definition FSUP50_get_marker_amplitude (self : FSUP50_t) : M trace pyval :=
  do reply <- Instrument_ask FSUP50_MARKER_AMPLITUDE_GET; ret (PyStr reply).

Definition FSUP50_get_sweeptime (self : FSUP50_t) : M trace pyval :=
  do reply <- Instrument_ask FSUP50_SWEEPTIME_GET; ret (PyStr reply).

Definition FSUP50_set_sweep_single (self : FSUP50_t) : M trace pyval :=
  let cmd := FSUP50_SWEEP_SINGLE_SET in
  do_ Instrument_write cmd;
  ret PyNone.

Definition FSUP50_set_move_marker_peak (self : FSUP50_t) : M trace pyval :=
  let cmd := FSUP50_MOVE_MARKER_PEAK in
  do_ Instrument_write cmd;
  ret PyNone.

(** The methods the class body defines, each with its arity. *)
Definition FSUP50_methods (self : FSUP50_t)
  : list (string * (list pyval -> M trace pyval)) :=
  [ ("rst", arity0 (FSUP50_rst self));
    ("wait_to_complete", arity0 (FSUP50_wait_to_complete self));
    ("set_start_frequency", arity1 (FSUP50_set_start_frequency self));
    ("get_start_frequency", arity0 (FSUP50_get_start_frequency self));
    ("set_stop_frequency", arity1 (FSUP50_set_stop_frequency self));
    ("get_stop_frequency", arity0 (FSUP50_get_stop_frequency self));
    ("set_video_bw", arity1 (FSUP50_set_video_bw self));
    ("get_video_bw", arity0 (FSUP50_get_video_bw self));
    ("set_resolution_bw", arity1 (FSUP50_set_resolution_bw self));
    ("get_resolution_bw", arity0 (FSUP50_get_resolution_bw self));
    ("set_center_frequency", arity1 (FSUP50_set_center_frequency self));
    ("set_span_frequency", arity1 (FSUP50_set_span_frequency self));
    ("get_marker_frequency", arity0 (FSUP50_get_marker_frequency self));
    ("get_marker_amplitude", arity0 (FSUP50_get_marker_amplitude self));
    ("get_sweeptime", arity0 (FSUP50_get_sweeptime self));
    ("set_sweep_single", arity0 (FSUP50_set_sweep_single self));
    ("set_move_marker_peak", arity0 (FSUP50_set_move_marker_peak self)) ].

(** Method lookup on an instance: the class first, then the base. *)
Definition FSUP50_getattr (self : FSUP50_t) (name : string)
  : option (list pyval -> M trace pyval) :=
  match lookup_method name (FSUP50_methods self) with
  | Some f => Some f
  | None => Instrument_method name
  end.

(** *** The facade [ESA] *)

(** The device handle [self.devh]: an instance of one of the two drivers. *)
Inductive devh_t : Type :=
| DevFSUP50 (o : FSUP50_t)
| DevN9030A (o : N9030A_t).

Definition devh_class (h : devh_t) : string :=
  match h with
  | DevFSUP50 _ => "FSUP50"
  | DevN9030A _ => "N9030A"
  end.

Definition devh_getattr (h : devh_t) (name : string)
  : option (list pyval -> M trace pyval) :=
  match h with
  | DevFSUP50 o => FSUP50_getattr o name
  | DevN9030A o => N9030A_getattr o name
  end.

Record ESA_t : Type := {
  params : gmap string pyval;
  last_measurement : gmap string pyval;
  devh : devh_t
}.

(** [ESA.__init__].  The logging calls are left out, except for the
    subscripts they evaluate, which can raise. *)
Definition ESA___init__ (resource_name : string) (kwargs : gmap string pyval)
  : M trace ESA_t :=
  let params := kwargs in
  let last_measurement : gmap string pyval := ∅ in
  do devh <-
    try_except
      (do d <- lift_result (py_subscript params "devicedriver");
       if py_eq_str d "FSUP50" then
         do o <- FSUP50___init__ resource_name kwargs;
         do_ lift_result (py_subscript params "label");
         ret (DevFSUP50 o)
       else
         do d <- lift_result (py_subscript params "devicedriver");
         if py_eq_str d "N9030A" then
           do o <- N9030A___init__ resource_name kwargs;
           do_ lift_result (py_subscript params "label");
           ret (DevN9030A o)
         else
           do d <- lift_result (py_subscript params "devicedriver");
           raise (PyExn "NotImplementedError"
                    [PyStr "the devicetype %s is not implemented"; d]))
      (fun _ =>
         do_ lift_result (py_subscript params "devicedriver");
         raise (PyExn "Exception" [PyStr "ImportError"]));
  ret {| params := params; last_measurement := last_measurement;
         devh := devh |}.

(** The methods of the facade run on the facade object and the bus. *)
Definition ESA_state : Type := ESA_t * trace.

Definition get_self : M ESA_state ESA_t := fun st => (Ok (fst st), st).

(** A driver method runs on the bus alone: the driver holds no reference to
    the facade. *)
Definition on_driver {A} (m : M trace A) : M ESA_state A :=
  fun st => let '(r, tr') := m (snd st) in (r, (fst st, tr')).

(** [self.devh.name]: the bound method, not called. *)
Definition devh_attr (name : string) : M ESA_state pyval :=
  do self <- get_self;
  match devh_getattr (devh self) name with
  | Some _ => ret (PyBoundMethod (devh_class (devh self)) name)
  | None => raise (AttributeError name)
  end.

(** [self.devh.name(args)] *)
Definition devh_call (name : string) (args : list pyval) : M ESA_state pyval :=
  do self <- get_self;
  match devh_getattr (devh self) name with
  | Some f => on_driver (f args)
  | None => raise (AttributeError name)
  end.

(** [self.params[key]] *)
Definition params_subscript (key : string) : M ESA_state pyval :=
  do self <- get_self; lift_result (py_subscript (params self) key).

Definition ESA_reset : M ESA_state pyval :=
  do_ devh_call "rst" []; ret PyNone.

Definition ESA_wait_to_complete : M ESA_state pyval :=
  do_ devh_call "wait_busy" []; ret PyNone.

Definition ESA_InitDevice : M ESA_state pyval :=
  do_ devh_call "set_start_frequency" [PyNum 10]; ret PyNone.

Definition ESA_get_rawdata_from_spectrum (pathname filename : pyval)
  : M ESA_state pyval :=
  devh_call "get_rawdata_from_spectrum" [pathname; filename].

Definition ESA_set_start_frequency (freq : pyval) : M ESA_state pyval :=
  do_ devh_call "set_start_frequency" [freq]; ret PyNone.

Definition ESA_get_start_frequency : M ESA_state pyval :=
  devh_call "get_start_frequency" [].

Definition ESA_set_stop_frequency (freq : pyval) : M ESA_state pyval :=
  do_ devh_call "set_stop_frequency" [freq]; ret PyNone.

Definition ESA_get_stop_frequency : M ESA_state pyval :=
  devh_call "get_stop_frequency" [].

Definition ESA_set_video_bw (bw : pyval) : M ESA_state pyval :=
  do_ devh_call "set_video_bw" [bw]; ret PyNone.

Definition ESA_get_video_bw : M ESA_state pyval :=
  devh_call "get_video_bw" [].

Definition ESA_set_resolution_bw (resolution_bw : pyval) : M ESA_state pyval :=
  do_ devh_call "set_resolution_bw" [resolution_bw]; ret PyNone.

Definition ESA_get_resolution_bw : M ESA_state pyval :=
  devh_attr "get_resolution_bw".

Definition ESA_set_center_frequency (freq : pyval) : M ESA_state pyval :=
  do_ devh_call "set_center_frequency" [freq]; ret PyNone.

Definition ESA_get_center_frequency : M ESA_state pyval :=
  devh_call "get_center_frequency" [].

Definition ESA_set_span_frequency (span : pyval) : M ESA_state pyval :=
  do_ devh_call "set_span_frequency" [span]; ret PyNone.

Definition ESA_get_marker_frequency : M ESA_state pyval :=
  devh_call "get_marker_frequency" [].

Definition ESA_get_marker_amplitude (marker : pyval) : M ESA_state pyval :=
  do d <- params_subscript "devicedriver";
  if py_eq_str d "FSUP50" then devh_call "get_marker_amplitude" []
  else
    do d <- params_subscript "devicedriver";
    if py_eq_str d "N9030A" then devh_call "get_marker_amplitude" [marker]
    else ret PyNone.

Definition ESA_get_sweeptime : M ESA_state pyval :=
  devh_call "get_sweeptime" [].

Definition ESA_set_sweep_single (value : pyval) : M ESA_state pyval :=
  do_ devh_call "set_sweep_single" [value]; ret PyNone.

Definition ESA_set_move_marker_peak (marker : pyval) : M ESA_state pyval :=
  do d <- params_subscript "devicedriver";
  if py_eq_str d "FSUP50" then
    do_ devh_call "set_move_marker_peak" []; ret PyNone
  else
    do d <- params_subscript "devicedriver";
    if py_eq_str d "N9030A" then
      do_ devh_call "set_move_marker_peak" [marker]; ret PyNone
    else ret PyNone.

Definition ESA_get_instrument_select_option : M ESA_state pyval :=
  devh_call "get_instrument_select_option" [].

Definition ESA_set_instrument_select (value : pyval) : M ESA_state pyval :=
  do_ devh_call "set_instrument_select" [value]; ret PyNone.

Definition ESA_set_correction_noise_floor (value : pyval)
  : M ESA_state pyval :=
  do_ devh_call "set_correction_noise_floor" [value]; ret PyNone.

Definition ESA_set_calculate_marker_bandpower (value : pyval)
  : M ESA_state pyval :=
  do_ devh_call "set_calculate_marker_bandpower" [value]; ret PyNone.

Definition ESA_get_marker_band_left_freq (marker : pyval)
  : M ESA_state pyval :=
  devh_call "get_marker_band_left_freq" [marker].

Definition ESA_set_marker_band_left_freq (marker freq : pyval)
  : M ESA_state pyval :=
  do_ devh_call "set_marker_band_left_freq" [marker; freq]; ret PyNone.

Definition ESA_get_marker_band_right_freq (marker : pyval)
  : M ESA_state pyval :=
  devh_call "get_marker_band_right_freq" [marker].

Definition ESA_set_marker_band_right_freq (marker freq : pyval)
  : M ESA_state pyval :=
  do_ devh_call "set_marker_band_right_freq" [marker; freq]; ret PyNone.

Definition ESA_get_calculate_marker_x (marker : pyval) : M ESA_state pyval :=
  devh_call "get_calculate_marker_x" [marker].

Definition ESA_set_resolution_bw_auto (value : pyval) : M ESA_state pyval :=
  do_ devh_call "set_resolution_bw_auto" [value]; ret PyNone.

Definition ESA_get_status (extended : pyval) : M ESA_state pyval :=
  do self <- get_self; ret (PyDict (last_measurement self)).

(** A call of a facade method by a client; an omitted [marker] is [1], an
    omitted [extended] is [False], the number 0. *)
Inductive ESA_op : Type :=
| op_reset
| op_wait_to_complete
| op_InitDevice
| op_get_rawdata_from_spectrum (pathname filename : pyval)
| op_set_start_frequency (freq : pyval)
| op_get_start_frequency
| op_set_stop_frequency (freq : pyval)
| op_get_stop_frequency
| op_set_video_bw (bw : pyval)
| op_get_video_bw
| op_set_resolution_bw (resolution_bw : pyval)
| op_get_resolution_bw
| op_set_center_frequency (freq : pyval)
| op_get_center_frequency
| op_set_span_frequency (span : pyval)
| op_get_marker_frequency
| op_get_marker_amplitude (marker : option pyval)
| op_get_sweeptime
| op_set_sweep_single (value : pyval)
| op_set_move_marker_peak (marker : option pyval)
| op_get_instrument_select_option
| op_set_instrument_select (value : pyval)
| op_set_correction_noise_floor (value : pyval)
| op_set_calculate_marker_bandpower (value : pyval)
| op_get_marker_band_left_freq (marker : pyval)
| op_set_marker_band_left_freq (marker freq : pyval)
| op_get_marker_band_right_freq (marker : pyval)
| op_set_marker_band_right_freq (marker freq : pyval)
| op_get_calculate_marker_x (marker : pyval)
| op_set_resolution_bw_auto (value : pyval)
| op_get_status (extended : option pyval).

Definition ESA_call (op : ESA_op) : M ESA_state pyval :=
  match op with
  | op_reset => ESA_reset
  | op_wait_to_complete => ESA_wait_to_complete
  | op_InitDevice => ESA_InitDevice
  | op_get_rawdata_from_spectrum p f => ESA_get_rawdata_from_spectrum p f
  | op_set_start_frequency f => ESA_set_start_frequency f
  | op_get_start_frequency => ESA_get_start_frequency
  | op_set_stop_frequency f => ESA_set_stop_frequency f
  | op_get_stop_frequency => ESA_get_stop_frequency
  | op_set_video_bw b => ESA_set_video_bw b
  | op_get_video_bw => ESA_get_video_bw
  | op_set_resolution_bw b => ESA_set_resolution_bw b
  | op_get_resolution_bw => ESA_get_resolution_bw
  | op_set_center_frequency f => ESA_set_center_frequency f
  | op_get_center_frequency => ESA_get_center_frequency
  | op_set_span_frequency s => ESA_set_span_frequency s
  | op_get_marker_frequency => ESA_get_marker_frequency
  | op_get_marker_amplitude m =>
      ESA_get_marker_amplitude (default (PyNum 1) m)
  | op_get_sweeptime => ESA_get_sweeptime
  | op_set_sweep_single v => ESA_set_sweep_single v
  | op_set_move_marker_peak m =>
      ESA_set_move_marker_peak (default (PyNum 1) m)
  | op_get_instrument_select_option => ESA_get_instrument_select_option
  | op_set_instrument_select v => ESA_set_instrument_select v
  | op_set_correction_noise_floor v => ESA_set_correction_noise_floor v
  | op_set_calculate_marker_bandpower v =>
      ESA_set_calculate_marker_bandpower v
  | op_get_marker_band_left_freq m => ESA_get_marker_band_left_freq m
  | op_set_marker_band_left_freq m f => ESA_set_marker_band_left_freq m f
  | op_get_marker_band_right_freq m => ESA_get_marker_band_right_freq m
  | op_set_marker_band_right_freq m f => ESA_set_marker_band_right_freq m f
  | op_get_calculate_marker_x m => ESA_get_calculate_marker_x m
  | op_set_resolution_bw_auto v => ESA_set_resolution_bw_auto v
  | op_get_status e => ESA_get_status (default (PyNum 0) e)
  end.

(** A client session: the calls are made in turn, whatever each returns or
    raises. *)
Fixpoint ESA_run (ops : list ESA_op) (st : ESA_state) : ESA_state :=
  match ops with
  | [] => st
  | op :: rest => ESA_run rest (snd (ESA_call op st))
  end.

(** A driver instance and a facade instance used as concrete inputs. *)
Definition demo_FSUP50 : FSUP50_t :=
  {| base := {| resourceName := "GPIB0::16::INSTR";
                name := "R&S FSUP Signal Source Analyzer";
                id := identity_full |};
     model := "Model"; vendor := "Vendor"; serial := "SN123"; fw := "1.02" |}.

Definition demo_ESA : ESA_t :=
  {| params := kwargs_FSUP50; last_measurement := ∅;
     devh := DevFSUP50 demo_FSUP50 |}.

(** A facade instance is what [ESA.__init__] returns. *)
Definition constructed (self : ESA_t) : Prop :=
  exists resource_name kwargs tr tr',
    ESA___init__ resource_name kwargs tr = (Ok self, tr').

(** A facade computation that leaves the attributes of the facade alone. *)
Definition keeps_self {A} (m : M ESA_state A) : Prop :=
  forall st, fst (snd (m st)) = fst st.

(** ** Properties that hold for every instrument *)

Open Scope list_scope.

Ltac mred :=
  unfold bind, ret, raise, lift_result, try_except, get_self, on_driver;
  simpl.

Lemma written_app (t1 t2 : trace) :
  written (t1 ++ t2) = (written t1 ++ written t2)%list.
Proof. unfold written. rewrite !flat_map_concat_map, map_app, concat_app. reflexivity. Qed.

Lemma reads_app (t1 t2 : trace) :
  reads (t1 ++ t2) = (reads t1 ++ reads t2)%list.
Proof. unfold reads. rewrite !flat_map_concat_map, map_app, concat_app. reflexivity. Qed.

Lemma py_eq_str_true (v : pyval) (s : string) :
  py_eq_str v s = true -> v = PyStr s.
Proof.
  destruct v; simpl; try discriminate.
  intros H. apply String.eqb_eq in H. congruence.
Qed.

Lemma strict_range_outside (v lo hi : Q) (vals : list Q) :
  range_of vals = Some (lo, hi) ->
  (v < lo \/ hi < v)%Q ->
  strict_range v vals = Raise OutOfRangeError.
Proof.
  intros Hr Hout. unfold strict_range. rewrite Hr.
  destruct (Qle_bool lo v) eqn:E1; simpl; [|reflexivity].
  destruct (Qle_bool v hi) eqn:E2; [|reflexivity].
  apply Qle_bool_iff in E1. apply Qle_bool_iff in E2.
  destruct Hout as [H|H]; exfalso.
  - apply (Qlt_not_le _ _ H E1).
  - apply (Qlt_not_le _ _ H E2).
Qed.

Lemma strict_range_inside (v lo hi : Q) (vals : list Q) :
  range_of vals = Some (lo, hi) ->
  (lo <= v)%Q -> (v <= hi)%Q ->
  strict_range v vals = Ok v.
Proof.
  intros Hr H1 H2. unfold strict_range. rewrite Hr.
  apply Qle_bool_iff in H1. apply Qle_bool_iff in H2.
  rewrite H1, H2. reflexivity.
Qed.

Lemma control_set_outside (c : control) (lo hi v : Q) (tr : trace) :
  validator c = strict_range ->
  range_of (values c) = Some (lo, hi) ->
  (v < lo \/ hi < v)%Q ->
  control_set c (PyNum v) tr = (Raise ValidationError, tr).
Proof.
  intros Hv Hr Hout. unfold control_set.
  rewrite Hv, (strict_range_outside v lo hi _ Hr Hout). reflexivity.
Qed.

(** C1.  A value outside the declared range of a descriptor validated by
    [strict_range] is refused: the set path fails with [ValidationError] and
    leaves the trace of the transport as it was, so nothing is written.  For
    [start_frequency] of the driver the range is 0 Hz to 50 GHz. *)
Theorem strict_range_set_rejected (c : control) (lo hi v : Q) (tr : trace) :
  validator c = strict_range ->
  range_of (values c) = Some (lo, hi) ->
  (v < lo \/ hi < v)%Q ->
  control_set c (PyNum v) tr = (Raise ValidationError, tr)
  /\ written (snd (control_set c (PyNum v) tr)) = written tr
  /\ (c = start_frequency ->
      forall self, FSUP50_set_start_frequency self (PyNum v) tr
                   = (Raise ValidationError, tr)).
Proof.
  intros Hv Hr Hout.
  pose proof (control_set_outside c lo hi v tr Hv Hr Hout) as E.
  split; [exact E|]. split; [rewrite E; reflexivity|].
  intros -> self. unfold FSUP50_set_start_frequency, bind. rewrite E.
  reflexivity.
Qed.

(** C3.  On the facade of an [FSUP50], [reset] writes the reset command and
    then stops with a [TypeError], raised by [sleep] on the text of the
    completion query: the completion query itself is never written. *)
Theorem reset_writes_only_rst (p l : gmap string pyval) (o : FSUP50_t)
    (tr : trace) :
  let self := {| params := p; last_measurement := l; devh := DevFSUP50 o |} in
  ESA_reset (self, tr)
  = (Raise (TypeError "a float is required"),
     (self, (tr ++ [Wrote FSUP50_RESET])%list))
  /\ written (snd (snd (ESA_reset (self, tr))))
     = (written tr ++ [FSUP50_RESET])%list
  /\ written (snd (snd (ESA_reset (self, tr))))
     <> (written tr ++ [FSUP50_RESET; FSUP50_WAIT_TO_COMPLETE])%list.
Proof.
  intros self.
  assert (E : ESA_reset (self, tr)
              = (Raise (TypeError "a float is required"),
                 (self, (tr ++ [Wrote FSUP50_RESET])%list)))
    by reflexivity.
  split; [exact E|]. rewrite E. simpl. rewrite written_app. simpl.
  split; [reflexivity|].
  intros H. apply app_inv_head in H. discriminate H.
Qed.

(** C4.  [reset] never returns a handshake result.  Whatever the driver,
    the facade returns [None] or raises; on an [FSUP50] it raises the
    [TypeError] of [sleep] and nothing has been read from the instrument;
    and [wait_to_complete] of the driver, had it been reached, writes the
    completion query, reads nothing and returns [None]. *)
Theorem reset_returns_no_handshake_result (st : ESA_state)
    (p l : gmap string pyval) (o : FSUP50_t) (tr : trace) :
  let self := {| params := p; last_measurement := l; devh := DevFSUP50 o |} in
  (fst (ESA_reset st) = Ok PyNone \/ exists e, fst (ESA_reset st) = Raise e)
  /\ fst (ESA_reset (self, tr)) = Raise (TypeError "a float is required")
  /\ reads (snd (snd (ESA_reset (self, tr)))) = reads tr
  /\ FSUP50_wait_to_complete o tr
     = (Ok PyNone, tr ++ [Wrote FSUP50_WAIT_TO_COMPLETE]).
Proof.
  intros self. split; [|split; [|split]].
  - unfold ESA_reset, bind.
    destruct (devh_call "rst" [] st) as [[v|e] st']; simpl; eauto.
  - reflexivity.
  - unfold ESA_reset, devh_call. mred. rewrite reads_app. simpl.
    apply app_nil_r.
  - reflexivity.
Qed.

(** Construction with a driver name that is neither of the two known ones:
    the [NotImplementedError] is caught by the handler of the constructor,
    which raises a plain [Exception] in its place; the bus is not used. *)
Lemma ESA_init_unrecognized (resource_name : string)
    (kwargs : gmap string pyval) (d : pyval) (tr : trace) :
  kwargs !! "devicedriver" = Some d ->
  py_eq_str d "FSUP50" = false -> py_eq_str d "N9030A" = false ->
  ESA___init__ resource_name kwargs tr
  = (Raise (PyExn "Exception" [PyStr "ImportError"]), tr).
Proof.
  intros Hd H1 H2. unfold ESA___init__, py_subscript. mred.
  repeat (rewrite ?Hd, ?H1, ?H2; simpl). reflexivity.
Qed.

(** Construction when the constructor of the driver raises: whatever the
    exception, the facade raises the same plain [Exception]. *)
Lemma ESA_init_driver_raises (resource_name : string)
    (kwargs : gmap string pyval) (e : pyexn) (tr tr' : trace) :
  kwargs !! "devicedriver" = Some (PyStr "FSUP50") ->
  FSUP50___init__ resource_name kwargs tr = (Raise e, tr') ->
  ESA___init__ resource_name kwargs tr
  = (Raise (PyExn "Exception" [PyStr "ImportError"]), tr').
Proof.
  intros Hd He. unfold ESA___init__, py_subscript. mred.
  repeat (rewrite ?Hd, ?He; simpl). reflexivity.
Qed.

Lemma py_split_length (s : string) :
  length (py_split "," s) = S (count_char "," s).
Proof.
  induction s as [|c r IH]; [reflexivity|]. simpl.
  destruct (Ascii.eqb c ","); simpl.
  - rewrite IH. reflexivity.
  - destruct (py_split "," r) as [|h t]; simpl in *; [discriminate|exact IH].
Qed.

Lemma py_index_short (l : list string) (i : nat) :
  length l <= i -> py_index l i = Raise (IndexError "list index out of range").
Proof.
  intros H. unfold py_index.
  rewrite (proj2 (nth_error_None l i) H). reflexivity.
Qed.


(** After a successful construction the facade holds the keyword arguments,
    an empty [last_measurement], and the driver that [devicedriver] names. *)
Lemma constructed_inv (resource_name : string) (kwargs : gmap string pyval)
    (tr tr' : trace) (self : ESA_t) :
  ESA___init__ resource_name kwargs tr = (Ok self, tr') ->
  params self = kwargs
  /\ last_measurement self = ∅
  /\ kwargs !! "devicedriver" = Some (PyStr (devh_class (devh self))).
Proof.
  unfold ESA___init__, try_except, bind, lift_result, py_subscript, ret, raise.
  destruct (kwargs !! "devicedriver") as [d|] eqn:Ed; [|discriminate].
  destruct (py_eq_str d "FSUP50") eqn:E1.
  - apply py_eq_str_true in E1. subst d.
    destruct (FSUP50___init__ resource_name kwargs tr) as [[o|e] t];
      [|discriminate].
    destruct (kwargs !! "label"); [|discriminate].
    intros H. inversion H; subst. simpl. auto.
  - destruct (py_eq_str d "N9030A") eqn:E2.
    + apply py_eq_str_true in E2. subst d.
      destruct (N9030A___init__ resource_name kwargs tr) as [[o|e] t];
        [|discriminate].
      destruct (kwargs !! "label"); [|discriminate].
      intros H. inversion H; subst. simpl. auto.
    + discriminate.
Qed.

Lemma constructed_driver (self : ESA_t) :
  constructed self ->
  params self !! "devicedriver" = Some (PyStr (devh_class (devh self))).
Proof.
  intros (r & kw & tr & tr' & H).
  destruct (constructed_inv _ _ _ _ _ H) as (Hp & _ & Hd). rewrite Hp. exact Hd.
Qed.


(** On an [FSUP50] the call that is made is the driver's own method, which
    asks for the amplitude of the one marker. *)
Lemma marker_amplitude_FSUP50 (self : ESA_t) (o : FSUP50_t) (m : pyval)
    (tr : trace) :
  constructed self -> devh self = DevFSUP50 o ->
  ESA_get_marker_amplitude m (self, tr)
  = on_driver (FSUP50_get_marker_amplitude o) (self, tr).
Proof.
  intros Hc Ho. apply constructed_driver in Hc. rewrite Ho in Hc. simpl in Hc.
  unfold ESA_get_marker_amplitude, params_subscript, py_subscript, devh_call.
  mred. rewrite Hc. simpl. rewrite Ho. reflexivity.
Qed.

Lemma control_get_written (c : control) (tr : trace) :
  written (snd (control_get c tr)) = written tr ++ [get_command c].
Proof.
  unfold control_get, Instrument_ask. mred.
  destruct (py_float _); simpl; rewrite !written_app; simpl;
    rewrite app_nil_r; reflexivity.
Qed.

Lemma FSUP50_has_get_resolution_bw (o : FSUP50_t) :
  FSUP50_getattr o "get_resolution_bw"
  = Some (arity0 (FSUP50_get_resolution_bw o)).
Proof. reflexivity. Qed.

(** C8.  [get_resolution_bw] of the facade returns the bound method of the
    driver and does not call it: the state, and so the trace of the
    transport, is unchanged, where a call would have asked the instrument.
    This holds whenever the driver has the method, as an [FSUP50] has. *)
Theorem get_resolution_bw_returns_method (self : ESA_t) (tr : trace)
    (f : list pyval -> M trace pyval) :
  devh_getattr (devh self) "get_resolution_bw" = Some f ->
  ESA_get_resolution_bw (self, tr)
  = (Ok (PyBoundMethod (devh_class (devh self)) "get_resolution_bw"),
     (self, tr))
  /\ (forall o, devh self = DevFSUP50 o ->
        devh_call "get_resolution_bw" [] (self, tr)
        = on_driver (control_get resolution_bw) (self, tr)
        /\ written (snd (snd (devh_call "get_resolution_bw" [] (self, tr))))
           = written tr ++ [FSUP50_RESOLUTION_BW_GET]).
Proof.
  intros Hf. split.
  - unfold ESA_get_resolution_bw, devh_attr. mred. rewrite Hf. reflexivity.
  - intros o Ho. unfold devh_call. mred. rewrite Ho. simpl. split.
    + reflexivity.
    + unfold FSUP50_get_resolution_bw.
      pose proof (control_get_written resolution_bw tr) as E.
      destruct (control_get resolution_bw tr) as [r tr']. exact E.
Qed.

(** C9.  On the facade of an [FSUP50], [set_sweep_single(value)] raises
    [TypeError] for every [value]: the driver method takes no argument.  The
    state is unchanged, so nothing is written. *)
Theorem set_sweep_single_type_error (self : ESA_t) (o : FSUP50_t)
    (value : pyval) (tr : trace) :
  devh self = DevFSUP50 o ->
  ESA_set_sweep_single value (self, tr)
  = (Raise (TypeError "wrong number of positional arguments"), (self, tr)).
Proof.
  intros Ho. unfold ESA_set_sweep_single, devh_call. mred. rewrite Ho.
  reflexivity.
Qed.

(** *** The facade object is never assigned to *)

Lemma keeps_ret {A} (a : A) : keeps_self (ret a).
Proof. intros st. reflexivity. Qed.

Lemma keeps_raise {A} (e : pyexn) : keeps_self (@raise ESA_state A e).
Proof. intros st. reflexivity. Qed.

Lemma keeps_lift_result {A} (r : result A) :
  keeps_self (@lift_result ESA_state A r).
Proof. intros st. reflexivity. Qed.

Lemma keeps_get_self : keeps_self get_self.
Proof. intros st. reflexivity. Qed.

Lemma keeps_on_driver {A} (m : M trace A) : keeps_self (on_driver m).
Proof. intros st. unfold on_driver. destruct (m (snd st)). reflexivity. Qed.

Lemma keeps_bind {A B} (m : M ESA_state A) (k : A -> M ESA_state B) :
  keeps_self m -> (forall a, keeps_self (k a)) -> keeps_self (bind m k).
Proof.
  intros Hm Hk st. unfold bind. specialize (Hm st).
  destruct (m st) as [[a|e] st']; simpl in *.
  - rewrite Hk. exact Hm.
  - exact Hm.
Qed.

Lemma keeps_if {A} (b : bool) (m1 m2 : M ESA_state A) :
  keeps_self m1 -> keeps_self m2 -> keeps_self (if b then m1 else m2).
Proof. destruct b; auto. Qed.

Lemma keeps_devh_call (name : string) (args : list pyval) :
  keeps_self (devh_call name args).
Proof.
  unfold devh_call. apply keeps_bind; [apply keeps_get_self|].
  intros self. destruct (devh_getattr (devh self) name).
  - apply keeps_on_driver.
  - apply keeps_raise.
Qed.

Lemma keeps_devh_attr (name : string) : keeps_self (devh_attr name).
Proof.
  unfold devh_attr. apply keeps_bind; [apply keeps_get_self|].
  intros self. destruct (devh_getattr (devh self) name).
  - apply keeps_ret.
  - apply keeps_raise.
Qed.

Lemma keeps_params_subscript (key : string) :
  keeps_self (params_subscript key).
Proof.
  unfold params_subscript. apply keeps_bind; [apply keeps_get_self|].
  intros self. apply keeps_lift_result.
Qed.

Create HintDb keeps.
#[local] Hint Resolve keeps_ret keeps_raise keeps_lift_result keeps_get_self
  keeps_on_driver keeps_devh_call keeps_devh_attr keeps_params_subscript
  : keeps.
#[local] Hint Extern 2 (keeps_self (bind _ _)) =>
  apply keeps_bind; [|intros ?] : keeps.
#[local] Hint Extern 2 (keeps_self (if _ then _ else _)) =>
  apply keeps_if : keeps.

Lemma keeps_ESA_call (op : ESA_op) : keeps_self (ESA_call op).
Proof.
  destruct op; simpl;
    unfold ESA_reset, ESA_wait_to_complete, ESA_InitDevice,
      ESA_get_rawdata_from_spectrum, ESA_set_start_frequency,
      ESA_get_start_frequency, ESA_set_stop_frequency,
      ESA_get_stop_frequency, ESA_set_video_bw, ESA_get_video_bw,
      ESA_set_resolution_bw, ESA_get_resolution_bw,
      ESA_set_center_frequency, ESA_get_center_frequency,
      ESA_set_span_frequency, ESA_get_marker_frequency,
      ESA_get_marker_amplitude, ESA_get_sweeptime, ESA_set_sweep_single,
      ESA_set_move_marker_peak, ESA_get_instrument_select_option,
      ESA_set_instrument_select, ESA_set_correction_noise_floor,
      ESA_set_calculate_marker_bandpower, ESA_get_marker_band_left_freq,
      ESA_set_marker_band_left_freq, ESA_get_marker_band_right_freq,
      ESA_set_marker_band_right_freq, ESA_get_calculate_marker_x,
      ESA_set_resolution_bw_auto, ESA_get_status;
    auto 12 with keeps.
Qed.

Lemma ESA_run_self (ops : list ESA_op) (st : ESA_state) :
  fst (ESA_run ops st) = fst st.
Proof.
  revert st. induction ops as [|op rest IH]; intros st; [reflexivity|].
  simpl. rewrite IH. apply keeps_ESA_call.
Qed.

(** C10.  [last_measurement] is empty after construction and no method of
    the facade assigns to it: after any sequence of calls on a facade
    instance it is still empty, and [get_status] returns the empty
    mapping. *)
Theorem get_status_always_empty (resource_name : string)
    (kwargs : gmap string pyval) (tr tr' : trace) (self : ESA_t)
    (ops : list ESA_op) (extended : pyval) :
  ESA___init__ resource_name kwargs tr = (Ok self, tr') ->
  last_measurement (fst (ESA_run ops (self, tr'))) = ∅
  /\ fst (ESA_get_status extended (ESA_run ops (self, tr'))) = Ok (PyDict ∅).
Proof.
  intros H. destruct (constructed_inv _ _ _ _ _ H) as (_ & Hl & _).
  assert (E : last_measurement (fst (ESA_run ops (self, tr'))) = ∅)
    by (rewrite ESA_run_self; exact Hl).
  split; [exact E|].
  unfold ESA_get_status. mred. rewrite E. reflexivity.
Qed.



Lemma FSUP50_init_fields (resourceName : string)
    (kwargs : gmap string pyval) (tr : trace)
    (v m s f : string) (rest : list string) :
  let reply := dev (written (tr ++ [Wrote IDENTITY_QUERY])) in
  py_split "," reply = v :: m :: s :: f :: rest ->
  FSUP50___init__ resourceName kwargs tr
  = (Ok {| base := {| resourceName := resourceName;
                      name := "R&S FSUP Signal Source Analyzer";
                      id := reply |};
           model := m; vendor := v; serial := s; fw := f |},
     (tr ++ [Wrote IDENTITY_QUERY]) ++ [Read reply]).
Proof.
  intros reply E.
  unfold FSUP50___init__, Instrument___init__, Instrument_ask.
  mred. fold reply. rewrite E. reflexivity.
Qed.

(** *** The constructor of the facade, case by case *)

(** X1.  Without a [devicedriver] keyword the constructor of the facade
    raises [KeyError]: the subscript in the [try] block fails, and the
    handler fails on the same subscript before it can raise its own
    exception.  The bus is not used. *)
Theorem init_missing_devicedriver (resource_name : string)
    (kwargs : gmap string pyval) (tr : trace) :
  kwargs !! "devicedriver" = None ->
  ESA___init__ resource_name kwargs tr = (Raise (KeyError "devicedriver"), tr).
Proof.
  intros Hd. unfold ESA___init__, py_subscript. mred.
  repeat (rewrite ?Hd; simpl). reflexivity.
Qed.




(** *** The identity fields *)

Lemma py_split_nonempty (sep : ascii) (s : string) : py_split sep s <> [].
Proof.
  destruct s as [|c r]; simpl; [discriminate|].
  destruct (Ascii.eqb c sep); [discriminate|].
  destruct (py_split sep r); discriminate.
Qed.

Lemma py_join_split (sep : ascii) (s : string) :
  py_join (String sep EmptyString) (py_split sep s) = s.
Proof.
  induction s as [|c r IH]; [reflexivity|]. simpl.
  pose proof (py_split_nonempty sep r) as Hne.
  destruct (Ascii.eqb c sep) eqn:E.
  - apply Ascii.eqb_eq in E. subst c.
    destruct (py_split sep r) as [|h t]; [contradiction|].
    change (py_join (String sep "") ("" :: h :: t))
      with (String sep (py_join (String sep "") (h :: t))).
    rewrite IH. reflexivity.
  - destruct (py_split sep r) as [|h t]; [contradiction|].
    destruct t as [|h' t'].
    + simpl in *. rewrite IH. reflexivity.
    + change (py_join (String sep "") (String c h :: h' :: t'))
        with (String c (py_join (String sep "") (h :: h' :: t'))).
      rewrite IH. reflexivity.
Qed.

Lemma py_split_no_sep (sep : ascii) (s : string) :
  Forall (fun f => count_char sep f = 0) (py_split sep s).
Proof.
  induction s as [|c r IH]; simpl.
  - constructor; [reflexivity | constructor].
  - destruct (Ascii.eqb c sep) eqn:E.
    + constructor; [reflexivity | exact IH].
    + destruct (py_split sep r) as [|h t].
      * constructor; [simpl; rewrite E; reflexivity | constructor].
      * inversion IH; subst. constructor; [|assumption].
        simpl. rewrite E. assumption.
Qed.

(** X5.  The constructor of the driver succeeds exactly when the identity
    reply contains at least three commas. *)
Theorem FSUP50_init_iff_three_commas (resourceName : string)
    (kwargs : gmap string pyval) (tr : trace) :
  (exists o tr', FSUP50___init__ resourceName kwargs tr = (Ok o, tr'))
  <-> 3 <= count_char "," (dev (written (tr ++ [Wrote IDENTITY_QUERY]))).
Proof.
  set (reply := dev (written (tr ++ [Wrote IDENTITY_QUERY]))).
  pose proof (py_split_length reply) as L.
  split.
  - intros (o & tr' & E). revert E.
    unfold FSUP50___init__, Instrument___init__, Instrument_ask. mred.
    fold reply.
    destruct (py_split "," reply) as [|a [|b [|c [|d l]]]]; simpl in *;
      try discriminate.
    intros _. lia.
  - intros H.
    destruct (py_split "," reply) as [|a [|b [|c [|d l]]]] eqn:E;
      simpl in L; try lia.
    eexists. eexists.
    apply (FSUP50_init_fields resourceName kwargs tr a b c d l). exact E.
Qed.

(** X6.  After a successful construction none of [vendor], [model],
    [serial] and [fw] contains a comma, and when the reply has exactly
    three commas the four attributes joined by commas are the reply
    again: the split loses nothing.  (With more commas the fields after
    the fourth are dropped.) *)
Theorem identity_fields_rejoin (resourceName : string)
    (kwargs : gmap string pyval) (tr tr' : trace) (o : FSUP50_t) :
  FSUP50___init__ resourceName kwargs tr = (Ok o, tr') ->
  (count_char "," (vendor o) = 0 /\ count_char "," (model o) = 0
   /\ count_char "," (serial o) = 0 /\ count_char "," (fw o) = 0)
  /\ (count_char "," (id (base o)) = 3 ->
      (vendor o ++ "," ++ model o ++ "," ++ serial o ++ "," ++ fw o)%string
      = id (base o)).
Proof.
  unfold FSUP50___init__, Instrument___init__, Instrument_ask. mred.
  set (reply := dev (written (tr ++ [Wrote IDENTITY_QUERY]))).
  pose proof (py_split_length reply) as L.
  pose proof (py_split_no_sep "," reply) as N.
  pose proof (py_join_split "," reply) as J.
  destruct (py_split "," reply) as [|a [|b [|c [|d l]]]]; simpl;
    try discriminate.
  intros E. inversion E; subst o tr'; clear E. simpl.
  inversion N as [|? ? Na N1]; subst. inversion N1 as [|? ? Nb N2]; subst.
  inversion N2 as [|? ? Nc N3]; subst. inversion N3 as [|? ? Nd N4]; subst.
  split; [auto|].
  intros H3. rewrite H3 in L. simpl in L.
  destruct l; [|simpl in L; lia]. exact J.
Qed.

(** *** Forwarding by the facade *)


(** X8.  On the facade of an [FSUP50], [get_marker_frequency],
    [get_marker_amplitude] and [get_sweeptime] each write their one command,
    read one line and return that line as text, unparsed, whatever the
    instrument answered. *)
Theorem FSUP50_getters_return_text (self : ESA_t) (o : FSUP50_t)
    (m : pyval) (tr : trace) :
  constructed self ->
  devh self = DevFSUP50 o ->
  let asked cmd :=
    let reply := dev (written (tr ++ [Wrote cmd])) in
    (Ok (PyStr reply), (self, (tr ++ [Wrote cmd]) ++ [Read reply])) in
  ESA_get_marker_frequency (self, tr) = asked FSUP50_MARKER_FREQUENCY_GET
  /\ ESA_get_marker_amplitude m (self, tr)
     = asked FSUP50_MARKER_AMPLITUDE_GET
  /\ ESA_get_sweeptime (self, tr) = asked FSUP50_SWEEPTIME_GET.
Proof.
  intros Hc Ho asked. split; [|split].
  - unfold ESA_get_marker_frequency, devh_call. mred. rewrite Ho.
    reflexivity.
  - rewrite (marker_amplitude_FSUP50 self o m tr Hc Ho). reflexivity.
  - unfold ESA_get_sweeptime, devh_call. mred. rewrite Ho. reflexivity.
Qed.

(** X9.  On the facade of an [FSUP50], when the base class adds no method
    of its own, the facade methods that [FSUP50.py] has no counterpart for
    raise [AttributeError] and leave the bus alone; among them
    [wait_to_complete], which looks for [wait_busy] and not for the
    driver's [wait_to_complete], and [get_center_frequency], although the
    setter exists. *)
Theorem FSUP50_facade_unsupported (self : ESA_t) (o : FSUP50_t)
    (a b : pyval) (tr : trace) :
  devh self = DevFSUP50 o ->
  (forall n, Instrument_method n = None) ->
  Forall (fun '(op, n) =>
            ESA_call op (self, tr) = (Raise (AttributeError n), (self, tr)))
    [ (op_wait_to_complete, "wait_busy");
      (op_get_rawdata_from_spectrum a b, "get_rawdata_from_spectrum");
      (op_get_center_frequency, "get_center_frequency");
      (op_get_instrument_select_option, "get_instrument_select_option");
      (op_set_instrument_select a, "set_instrument_select");
      (op_set_correction_noise_floor a, "set_correction_noise_floor");
      (op_set_calculate_marker_bandpower a, "set_calculate_marker_bandpower");
      (op_get_marker_band_left_freq a, "get_marker_band_left_freq");
      (op_set_marker_band_left_freq a b, "set_marker_band_left_freq");
      (op_get_marker_band_right_freq a, "get_marker_band_right_freq");
      (op_set_marker_band_right_freq a b, "set_marker_band_right_freq");
      (op_get_calculate_marker_x a, "get_calculate_marker_x");
      (op_set_resolution_bw_auto a, "set_resolution_bw_auto") ].
Proof.
  intros Ho Hb.
  assert (G : forall n args,
             lookup_method n (FSUP50_methods o) = None ->
             devh_call n args (self, tr)
             = (Raise (AttributeError n), (self, tr))).
  { intros n args Hn. unfold devh_call. mred. rewrite Ho. simpl.
    unfold FSUP50_getattr. rewrite Hn, Hb. reflexivity. }
  repeat constructor; simpl;
    unfold ESA_wait_to_complete, ESA_get_rawdata_from_spectrum,
      ESA_get_center_frequency, ESA_get_instrument_select_option,
      ESA_set_instrument_select, ESA_set_correction_noise_floor,
      ESA_set_calculate_marker_bandpower, ESA_get_marker_band_left_freq,
      ESA_set_marker_band_left_freq, ESA_get_marker_band_right_freq,
      ESA_set_marker_band_right_freq, ESA_get_calculate_marker_x,
      ESA_set_resolution_bw_auto, bind;
    rewrite G by reflexivity; reflexivity.
Qed.

(** X10.  The driver of a facade is chosen once: after any sequence of
    calls, whatever they returned or raised, the facade still holds the
    keyword arguments and the device handle it was given. *)
Theorem driver_chosen_once (ops : list ESA_op) (st : ESA_state) :
  devh (fst (ESA_run ops st)) = devh (fst st)
  /\ params (fst (ESA_run ops st)) = params (fst st).
Proof. rewrite ESA_run_self. split; reflexivity. Qed.

(** *** Setters of the driver *)

(** X11.  [set_resolution_bw] of the driver never writes to the bus,
    whatever its argument: outside the declared range the value is refused,
    and inside it the set template [BAND:AUTO OFF], which has no conversion
    for the value, makes the formatting raise [TypeError].  (The set path
    is the one modelled for the descriptors.) *)
Theorem set_resolution_bw_never_writes (self : FSUP50_t) (value : pyval)
    (tr : trace) :
  (exists e, FSUP50_set_resolution_bw self value tr = (Raise e, tr))
  /\ (forall q, value = PyNum q -> (10 <= q)%Q -> (q <= 50)%Q ->
        FSUP50_set_resolution_bw self value tr
        = (Raise (TypeError
                    "not all arguments converted during string formatting"),
           tr)).
Proof.
  split.
  - unfold FSUP50_set_resolution_bw, control_set, bind.
    destruct value; try (eexists; reflexivity).
    cbn [validator values resolution_bw set_command]. unfold strict_range.
    cbn [range_of].
    destruct (_ && _); eexists; reflexivity.
  - intros q -> H1 H2.
    unfold FSUP50_set_resolution_bw, control_set, bind.
    cbn [validator values resolution_bw set_command].
    rewrite (strict_range_inside q 10 50) by (reflexivity || assumption).
    reflexivity.
Qed.

(** [InitDevice] on the facade of an [FSUP50] sets the start
    frequency to 10 Hz: it writes [FREQ:STAR 10.000000], then the completion
    query, whose answer it reads, and returns [None].  (The set path is the
    one modelled for the descriptors.) *)
Theorem InitDevice_on_FSUP50 (p l : gmap string pyval) (o : FSUP50_t)
    (tr : trace) :
  let self := {| params := p; last_measurement := l; devh := DevFSUP50 o |} in
  exists reply,
    ESA_InitDevice (self, tr)
    = (Ok PyNone,
       (self, ((tr ++ [Wrote "FREQ:STAR 10.000000"%string])
               ++ [Wrote FSUP50_WAIT_TO_COMPLETE]) ++ [Read reply])).
Proof.
  intros self. eexists. reflexivity.
Qed.

(** X12.  On the facade of an [FSUP50], [set_start_frequency] with a value
    below 0 Hz or above 50 GHz raises the [ValidationError] of the driver
    unchanged, and neither the facade nor the bus is touched.  (The set path
    is the one modelled for the descriptors.) *)
Theorem facade_set_start_frequency_rejected (self : ESA_t) (o : FSUP50_t)
    (v : Q) (tr : trace) :
  devh self = DevFSUP50 o ->
  (v < 0 \/ 50000000000 < v)%Q ->
  ESA_set_start_frequency (PyNum v) (self, tr)
  = (Raise ValidationError, (self, tr)).
Proof.
  intros Ho Hout. unfold ESA_set_start_frequency, devh_call. mred.
  rewrite Ho. simpl. unfold FSUP50_set_start_frequency, bind.
  rewrite (control_set_outside start_frequency 0 50000000000 v tr);
    [reflexivity | reflexivity | reflexivity | exact Hout].
Qed.

End Drivers.

Arguments DevFSUP50 {N9030A_t} o.
Arguments DevN9030A {N9030A_t} o.
Arguments Build_ESA_t {N9030A_t} params last_measurement devh.
Arguments params {N9030A_t} e.
Arguments last_measurement {N9030A_t} e.
Arguments devh {N9030A_t} e.

Open Scope list_scope.

(** ** The text of a number read back *)














(** ** The round trip of the start frequency *)





(** ** Concrete runs *)

Example start_frequency_command_10 :
  py_percent FSUP50_START_FREQUENCY_SET (PyNum 10) = Ok "FREQ:STAR 10.000000".
Proof. vm_compute. reflexivity. Qed.

Example fmt_f_rounds_half_to_even :
  fmt_f (5 # 10000000) = "0.000000" /\ fmt_f (15 # 10000000) = "0.000002".
Proof. split; vm_compute; reflexivity. Qed.

Example py_float_fixed_point :
  py_float "50000000000.000000" = Ok (50000000000000000 # 1000000)
  /\ py_float "-0.500000" = Ok (-500000 # 1000000)
  /\ py_float "." = Raise (ValueError "could not convert string to float").
Proof. repeat split; vm_compute; reflexivity. Qed.

Example py_split_identity :
  py_split "," identity_full = ["Vendor"; "Model"; "SN123"; "1.02"]
  /\ py_split "," "a,,b," = ["a"; ""; "b"; ""].
Proof. split; vm_compute; reflexivity. Qed.

Example resolution_bw_template_takes_no_value :
  py_percent FSUP50_RESOLUTION_BW_SET (PyNum 10)
  = Raise (TypeError "not all arguments converted during string formatting").
Proof. vm_compute. reflexivity. Qed.

(** A facade built on an [FSUP50], then reset: the identity query, its
    reply, the reset command, and the [TypeError]. *)
Example construct_then_reset :
  exists self tr,
    ESA___init__ (const_device identity_full) unit mock_init
      "GPIB0::16::INSTR" kwargs_FSUP50 [] = (Ok self, tr)
    /\ ESA_reset (const_device identity_full) no_inherited unit no_methods
         (self, tr)
       = (Raise (TypeError "a float is required"),
          (self, [Wrote IDENTITY_QUERY; Read identity_full;
                  Wrote FSUP50_RESET])).
Proof.
  exists (demo_ESA unit), [Wrote IDENTITY_QUERY; Read identity_full].
  split; vm_compute; reflexivity.
Qed.

(** C5.  Construction with [devicedriver="UnknownModel"] uses no transport
    and fails, but with a plain [Exception("ImportError")], the
    [NotImplementedError] having been caught by the constructor's own handler;
    construction of an [FSUP50] whose identity reply has two fields fails
    with the very same exception, the [IndexError] of the driver being
    dropped.  The two failures cannot be told apart. *)
Theorem construction_failures_collapse :
  (forall (dev : device) (resource_name : string) (tr : trace),
     ESA___init__ dev unit mock_init resource_name kwargs_unknown tr
     = (Raise (PyExn "Exception" [PyStr "ImportError"]), tr))
  /\ FSUP50___init__ (const_device identity_short) "GPIB0::16::INSTR"
       kwargs_FSUP50 []
     = (Raise (IndexError "list index out of range"),
        [Wrote IDENTITY_QUERY; Read identity_short])
  /\ ESA___init__ (const_device identity_short) unit mock_init
       "GPIB0::16::INSTR" kwargs_FSUP50 []
     = (Raise (PyExn "Exception" [PyStr "ImportError"]),
        [Wrote IDENTITY_QUERY; Read identity_short]).
Proof.
  split; [|split].
  - intros dev resource_name tr.
    apply (ESA_init_unrecognized dev unit mock_init resource_name
             kwargs_unknown (PyStr "UnknownModel") tr); reflexivity.
  - vm_compute. reflexivity.
  - vm_compute. reflexivity.
Qed.


Lemma demo_ESA_constructed :
  constructed (const_device identity_full) unit mock_init (demo_ESA unit).
Proof.
  exists "GPIB0::16::INSTR", kwargs_FSUP50, [],
    [Wrote IDENTITY_QUERY; Read identity_full].
  vm_compute. reflexivity.
Defined.

Lemma strict_range_set_rejected_witness :
  control_set (const_device "") start_frequency (PyNum (-1)) []
  = (Raise ValidationError, []).
Proof.
  apply (strict_range_set_rejected (const_device "") start_frequency
           0 50000000000 (-1) []).
  - reflexivity.
  - reflexivity.
  - left. reflexivity.
Defined.





Lemma get_resolution_bw_returns_method_witness :
  ESA_get_resolution_bw (const_device identity_full) no_inherited unit
    no_methods (demo_ESA unit, [])
  = (Ok (PyBoundMethod "FSUP50" "get_resolution_bw"), (demo_ESA unit, [])).
Proof.
  apply (get_resolution_bw_returns_method (const_device identity_full)
           no_inherited unit no_methods (demo_ESA unit) []
           (arity0 (FSUP50_get_resolution_bw (const_device identity_full)
                      demo_FSUP50))).
  reflexivity.
Defined.

Lemma set_sweep_single_type_error_witness :
  ESA_set_sweep_single (const_device identity_full) no_inherited unit
    no_methods (PyNum 1) (demo_ESA unit, [])
  = (Raise (TypeError "wrong number of positional arguments"),
     (demo_ESA unit, [])).
Proof.
  apply (set_sweep_single_type_error (const_device identity_full)
           no_inherited unit no_methods (demo_ESA unit) demo_FSUP50
           (PyNum 1) []).
  reflexivity.
Defined.

Lemma get_status_always_empty_witness :
  let ops := [op_InitDevice; op_get_marker_amplitude None;
              op_set_sweep_single (PyNum 1); op_reset; op_get_status None] in
  let st := ESA_run (const_device identity_full) no_inherited unit no_methods
              ops (demo_ESA unit, [Wrote IDENTITY_QUERY; Read identity_full]) in
  last_measurement (fst st) = ∅
  /\ fst (ESA_get_status unit PyNone st) = Ok (PyDict ∅).
Proof.
  apply (get_status_always_empty (const_device identity_full) no_inherited
           unit mock_init no_methods "GPIB0::16::INSTR" kwargs_FSUP50 []
           [Wrote IDENTITY_QUERY; Read identity_full] (demo_ESA unit)).
  vm_compute. reflexivity.
Defined.

(** ** Centre and span frequency *)







Section Frequencies.

Context (dev : device)
        (Instrument_method : string -> option (list pyval -> M trace pyval))
        (N9030A_t : Type)
        (N9030A_getattr :
           N9030A_t -> string -> option (list pyval -> M trace pyval)).




End Frequencies.

(** ** Concrete runs of the further properties *)

Lemma init_missing_devicedriver_witness :
  ESA___init__ (const_device identity_full) unit mock_init "GPIB0::16::INSTR"
    kwargs_no_driver []
  = (Raise (KeyError "devicedriver"), []).
Proof.
  apply (init_missing_devicedriver (const_device identity_full) unit
           mock_init "GPIB0::16::INSTR" kwargs_no_driver []).
  vm_compute. reflexivity.
Defined.



Lemma FSUP50_init_iff_three_commas_witness :
  exists o tr',
    FSUP50___init__ (const_device identity_full) "GPIB0::16::INSTR"
      kwargs_FSUP50 [] = (Ok o, tr').
Proof.
  apply (proj2 (FSUP50_init_iff_three_commas (const_device identity_full)
                  "GPIB0::16::INSTR" kwargs_FSUP50 [])).
  apply le_n.
Defined.

Lemma identity_fields_rejoin_witness :
  ("Vendor" ++ "," ++ "Model" ++ "," ++ "SN123" ++ "," ++ "1.02")%string
  = identity_full.
Proof.
  apply (proj2 (identity_fields_rejoin (const_device identity_full)
                  "GPIB0::16::INSTR" kwargs_FSUP50 []
                  [Wrote IDENTITY_QUERY; Read identity_full] demo_FSUP50
                  eq_refl)).
  reflexivity.
Defined.


Lemma FSUP50_getters_return_text_witness :
  ESA_get_sweeptime (const_device identity_full) no_inherited unit no_methods
    (demo_ESA unit, [])
  = (Ok (PyStr identity_full),
     (demo_ESA unit, [Wrote FSUP50_SWEEPTIME_GET; Read identity_full])).
Proof.
  apply (FSUP50_getters_return_text (const_device identity_full)
           no_inherited unit mock_init no_methods (demo_ESA unit)
           demo_FSUP50 (PyNum 1) [] demo_ESA_constructed eq_refl).
Defined.

Lemma FSUP50_facade_unsupported_witness :
  ESA_call (const_device identity_full) no_inherited unit no_methods
    op_get_center_frequency (demo_ESA unit, [])
  = (Raise (AttributeError "get_center_frequency"), (demo_ESA unit, [])).
Proof.
  pose proof (FSUP50_facade_unsupported (const_device identity_full)
                no_inherited unit no_methods (demo_ESA unit) demo_FSUP50
                PyNone PyNone [] eq_refl (fun _ => eq_refl)) as H.
  exact (Forall_inv (Forall_inv_tail (Forall_inv_tail H))).
Defined.

Lemma set_resolution_bw_never_writes_witness :
  FSUP50_set_resolution_bw (const_device identity_full) demo_FSUP50
    (PyNum 20) []
  = (Raise (TypeError "not all arguments converted during string formatting"),
     []).
Proof.
  apply (proj2 (set_resolution_bw_never_writes (const_device identity_full)
                  demo_FSUP50 (PyNum 20) []) 20%Q eq_refl).
  - unfold Qle. simpl. lia.
  - unfold Qle. simpl. lia.
Defined.

Lemma facade_set_start_frequency_rejected_witness :
  ESA_set_start_frequency (const_device identity_full) no_inherited unit
    no_methods (PyNum (-1)) (demo_ESA unit, [])
  = (Raise ValidationError, (demo_ESA unit, [])).
Proof.
  apply (facade_set_start_frequency_rejected (const_device identity_full)
           no_inherited unit no_methods (demo_ESA unit) demo_FSUP50 (-1) []).
  - reflexivity.
  - left. reflexivity.
Defined.





